(** * import-project.py: the Godot importer launcher

    A shallow embedding of [src/import-project.py] and the properties of
    its two functions, [detect_editor_binary] and [main].

    The script reads the host (platform name, machine name, environment,
    command line), asks the file system two questions, may print to the
    error stream, may run one child process, and always ends by
    [sys.exit] or by an uncaught exception.  The embedding keeps all of
    that observable: a run is a list of events together with the way the
    run ended. *)

From Stdlib Require Import ZArith NArith Ascii String List Bool.
From stdpp Require Import base option list strings gmap.
Import ListNotations.

Local Open Scope string_scope.

(** ** The pieces of the Python runtime the script calls *)

Module Py.

(** [str.lower] on strings of 8-bit characters, which is what machine
    names are: the letters [A]..[Z] go to [a]..[z], every other
    character stays. *)
Definition ascii_lower (c : ascii) : ascii :=
  let n := N_of_ascii c in
  if ((65 <=? n) && (n <=? 90))%N then ascii_of_N (n + 32) else c.

Fixpoint lower (s : string) : string :=
  match s with
  | EmptyString => EmptyString
  | String c s' => String (ascii_lower c) (lower s')
  end.

(** [x in (a, b, ...)] on strings. *)
Definition str_in (x : string) (xs : list string) : bool :=
  existsb (String.eqb x) xs.

(** [s.startswith(p)] and [s.endswith(p)]. *)
Definition startswith (s p : string) : bool := String.prefix p s.

Definition endswith (s p : string) : bool :=
  let n := String.length s in
  let k := String.length p in
  (k <=? n)%nat && String.eqb (String.substring (n - k) k s) p.

(** Truth value of a string: only the empty string is false. *)
Definition truthy (s : string) : bool := negb (String.eqb s "").

(** The two implementations of [os.path]. *)
Inductive path_module := posixpath | ntpath.

Definition sep (pm : path_module) : string :=
  match pm with
  | posixpath => "/"
  | ntpath => "\"
  end.

(** [os.path.join(a, *p)]: a component that starts with the separator
    replaces what was joined so far, a component after an empty path or
    after a path that ends with the separator is appended as it is, any
    other component is appended after a separator.  This is
    [posixpath.join] word for word; [ntpath.join] looks at drive letters
    and at the second separator ["/"] too, which the components joined
    by this script (plain names after a relative or a normalised
    absolute directory) do not contain. *)
Definition join_step (pm : path_module) (path b : string) : string :=
  if startswith b (sep pm) then b
  else if String.eqb path "" || endswith path (sep pm) then path +:+ b
  else path +:+ sep pm +:+ b.

Definition os_path_join (pm : path_module) (a : string) (p : list string) : string :=
  fold_left (join_step pm) p a.

End Py.

(** ** The host the script runs on *)

(** What [subprocess.run] gives back: a completed child with its
    [returncode] (negative when a signal ended the child on POSIX), or
    the exception the platform raises when the child cannot be started. *)
Inductive run_result :=
  | Completed (returncode : Z)
  | SpawnError (exn : string).

Record host := Host {
  platform_system : string;                  (* platform.system() *)
  platform_machine : string;                 (* platform.machine() *)
  environ : gmap string string;              (* os.environ *)
  argv : list string;                        (* sys.argv *)
  os_path : Py.path_module;                  (* the os.path in use *)
  path_exists : string → bool;               (* os.path.exists *)
  path_isfile : string → bool;               (* os.path.isfile *)
  path_abspath : string → string;            (* os.path.abspath, for the
                                                current working directory;
                                                the runs in which it raises
                                                (that directory is gone)
                                                are not modelled *)
  subprocess_run : list string → run_result  (* subprocess.run(args) *)
}.

(** ** Runs: what the script does and how it ends *)

Inductive event :=
  | Stderr (line : string)          (* print(line, file=sys.stderr) *)
  | PathExists (path : string)      (* os.path.exists(path) *)
  | PathIsfile (path : string)      (* os.path.isfile(path) *)
  | PathAbspath (path : string)     (* os.path.abspath(path) *)
  | Spawn (args : list string).     (* subprocess.run(args) *)

Inductive outcome (A : Type) :=
  | Return (a : A)                  (* the call returns a *)
  | SystemExit (code : Z)           (* sys.exit(code): the code as it is
                                       given, see [exit_status] *)
  | Uncaught (exn : string).        (* an exception nobody handles *)
Arguments Return {A} a.
Arguments SystemExit {A} code.
Arguments Uncaught {A} exn.

Record run (A : Type) := Run { trace : list event; result : outcome A }.
Arguments Run {A} trace result.
Arguments trace {A} r.
Arguments result {A} r.

#[global] Instance run_ret : MRet run := λ A a, Run [] (Return a).

#[global] Instance run_bind : MBind run := λ A B f m,
  match result m with
  | Return a => Run (trace m ++ trace (f a)) (result (f a))
  | SystemExit code => Run (trace m) (SystemExit code)
  | Uncaught exn => Run (trace m) (Uncaught exn)
  end.

Definition emit (e : event) : run unit := Run [e] (Return tt).

Definition print_stderr (line : string) : run unit := emit (Stderr line).

Definition sys_exit {A} (code : Z) : run A := Run [] (SystemExit code).

Definition os_path_exists (h : host) (p : string) : run bool :=
  Run [PathExists p] (Return (path_exists h p)).

Definition os_path_isfile (h : host) (p : string) : run bool :=
  Run [PathIsfile p] (Return (path_isfile h p)).

Definition os_path_abspath (h : host) (p : string) : run string :=
  Run [PathAbspath p] (Return (path_abspath h p)).

Definition os_path_join (h : host) (a : string) (p : list string) : string :=
  Py.os_path_join (os_path h) a p.

Definition subprocess_run_returncode (h : host) (args : list string) : run Z :=
  match subprocess_run h args with
  | Completed rc => Run [Spawn args] (Return rc)
  | SpawnError exn => Run [Spawn args] (Uncaught exn)
  end.

(** [a or b] where [a] is [os.environ.get(key)]: [b] is evaluated only
    when [a] is [None] or the empty string. *)
Definition environ_get_or (h : host) (key : string) (b : run string) : run string :=
  match environ h !! key with
  | Some v => if Py.truthy v then mret v else b
  | None => b
  end.

(** ** The script *)

(** Lines 13-17: the architecture part of the file name. *)
Definition arch_of (platform_machine : string) : string :=
  let machine := Py.lower platform_machine in
  if Py.str_in machine ["arm64"; "aarch64"] then "arm64" else "x86_64".

(** Lines 19-27: the file name, or nothing on a platform the script
    does not know. *)
Definition name_of (system arch : string) : option string :=
  if String.eqb system "Windows" then
    Some ("godot.windows.editor." +:+ arch +:+ ".executable.mono.exe")
  else if String.eqb system "Linux" then
    Some ("godot.linuxbsd.editor." +:+ arch +:+ ".executable.mono")
  else if String.eqb system "Darwin" then
    Some ("godot.macos.editor." +:+ arch +:+ ".executable.mono")
  else None.

Definition detect_editor_binary (h : host) : run string :=
  let system := platform_system h in
  let arch := arch_of (platform_machine h) in
  match name_of system arch with
  | None =>
      print_stderr ("Unsupported platform: " +:+ system);;
      sys_exit 1
  | Some name =>
      let path := os_path_join h "godot" ["bin"; name] in
      found ← os_path_exists h path;
      if negb found then
        print_stderr ("Editor binary not found: " +:+ path);;
        print_stderr "Build the editor first: uv run poe build-godot";;
        sys_exit 1
      else
        mret path
  end.

(** Line 39: [sys.argv[1] if len(sys.argv) > 1 else "./game"]. *)
Definition project_arg (h : host) : string :=
  if decide (1 < List.length (argv h)) then nth 1 (argv h) "" else "./game".

(** Line 40: [os.environ.get("GODOT_EDITOR") or detect_editor_binary()]. *)
Definition editor_choice (h : host) : run string :=
  environ_get_or h "GODOT_EDITOR" (detect_editor_binary h).

Definition main (h : host) : run Empty_set :=
  let project := project_arg h in
  editor ← editor_choice h;
  project ← os_path_abspath h project;
  marker ← os_path_isfile h (os_path_join h project ["project.godot"]);
  if negb marker then
    print_stderr ("No project.godot found in: " +:+ project);;
    sys_exit 1
  else
    rc ← subprocess_run_returncode h [editor; "--headless"; "--import"; "--path"; project];
    sys_exit rc.

(** Names for the sub-expressions of [main] the properties speak about:
    the project directory after [os.path.abspath], the marker file that
    is tested, and the argument list given to [subprocess.run]. *)
Definition project_dir (h : host) : string := path_abspath h (project_arg h).

Definition marker_path (h : host) : string :=
  os_path_join h (project_dir h) ["project.godot"].

Definition editor_args (h : host) (editor : string) : list string :=
  [editor; "--headless"; "--import"; "--path"; project_dir h].

(** Hosts that differ in one setting. *)
Definition set_environ (env : gmap string string) (h : host) : host := {|
  platform_system := platform_system h;
  platform_machine := platform_machine h;
  environ := env;
  argv := argv h;
  os_path := os_path h;
  path_exists := path_exists h;
  path_isfile := path_isfile h;
  path_abspath := path_abspath h;
  subprocess_run := subprocess_run h
|}.

Definition set_argv (args : list string) (h : host) : host := {|
  platform_system := platform_system h;
  platform_machine := platform_machine h;
  environ := environ h;
  argv := args;
  os_path := os_path h;
  path_exists := path_exists h;
  path_isfile := path_isfile h;
  path_abspath := path_abspath h;
  subprocess_run := subprocess_run h
|}.

Definition set_platform (system machine : string) (h : host) : host := {|
  platform_system := system;
  platform_machine := machine;
  environ := environ h;
  argv := argv h;
  os_path := os_path h;
  path_exists := path_exists h;
  path_isfile := path_isfile h;
  path_abspath := path_abspath h;
  subprocess_run := subprocess_run h
|}.

Definition set_files (exists_ isfile : string → bool) (h : host) : host := {|
  platform_system := platform_system h;
  platform_machine := platform_machine h;
  environ := environ h;
  argv := argv h;
  os_path := os_path h;
  path_exists := exists_;
  path_isfile := isfile;
  path_abspath := path_abspath h;
  subprocess_run := subprocess_run h
|}.

(** The events of the binary locator: it tests one path and prints. *)
Definition locator_event (e : event) : Prop :=
  match e with
  | PathExists _ | Stderr _ => True
  | _ => False
  end.

(** ** The words of the specification *)

Module Spec.

(** The alphabet in its two forms, letter under letter. *)
Definition upper_case : string := "ABCDEFGHIJKLMNOPQRSTUVWXYZ".
Definition lower_case : string := "abcdefghijklmnopqrstuvwxyz".

Definition letters : list (ascii * ascii) :=
  combine (list_ascii_of_string upper_case) (list_ascii_of_string lower_case).

(** Two characters are the same up to case when they are equal or are
    the two forms of one letter. *)
Definition same_letter (x y : ascii) : bool :=
  Ascii.eqb x y
  || existsb (λ ul, (Ascii.eqb x ul.1 && Ascii.eqb y ul.2)
                    || (Ascii.eqb x ul.2 && Ascii.eqb y ul.1)) letters.

(** Case-insensitive comparison of strings. *)
Fixpoint eq_nocase (a b : string) : bool :=
  match a, b with
  | EmptyString, EmptyString => true
  | String x a', String y b' => same_letter x y && eq_nocase a' b'
  | _, _ => false
  end.

(** The OS token and the suffix of section 4.1. *)
Definition os_token (system : string) : option (string * string) :=
  if String.eqb system "Windows" then Some ("windows", ".exe")
  else if String.eqb system "Linux" then Some ("linuxbsd", "")
  else if String.eqb system "Darwin" then Some ("macos", "")
  else None.

(** The pattern [godot.<os-token>.editor.<arch-token>.executable.mono[.exe]]. *)
Definition filename (os_tok arch_tok suffix : string) : string :=
  "godot." +:+ os_tok +:+ ".editor." +:+ arch_tok +:+ ".executable.mono" +:+ suffix.


End Spec.

(** ** Sample hosts *)

Module Sample.

Definition linux_editor : string :=
  "godot/bin/godot.linuxbsd.editor.x86_64.executable.mono".

(** A working directory [/work] that holds the project [game]. *)
Definition abspath (p : string) : string :=
  if String.eqb p "./game" then "/work/game"
  else if Py.startswith p "/" then p
  else "/work/" +:+ p.

Definition stub_args (editor : string) : list string :=
  [editor; "--headless"; "--import"; "--path"; "/work/game"].

(** A Linux checkout with the editor built and the default project in
    place; the editor is a stub that exits with code 7. *)
Definition linux : host := {|
  platform_system := "Linux";
  platform_machine := "x86_64";
  environ := ∅;
  argv := ["import-project.py"];
  os_path := Py.posixpath;
  path_exists := λ p, String.eqb p linux_editor;
  path_isfile := λ p, String.eqb p "/work/game/project.godot";
  path_abspath := abspath;
  subprocess_run := λ args,
    if decide (args = stub_args linux_editor) then Completed 7
    else SpawnError "FileNotFoundError"
|}.

(** The same checkout before the editor is built. *)
Definition linux_unbuilt : host :=
  set_files (λ _, false) (path_isfile linux) linux.


(** [GODOT_EDITOR] set to the empty string. *)
Definition linux_empty_override : host :=
  set_environ {[ "GODOT_EDITOR" := "" ]} linux.

(** [GODOT_EDITOR] names a file that is not there; starting it fails. *)
Definition linux_missing_override : host :=
  set_environ {[ "GODOT_EDITOR" := "/opt/godot/missing" ]} linux_unbuilt.


(** An Apple-silicon Mac that reports its machine in capitals. *)
Definition mac : host := set_platform "Darwin" "ARM64" linux.

(** Extra words on the command line after the project path. *)
Definition linux_extra_args : host :=
  set_argv ["import-project.py"; "./game"; "--verbose"; "x"] linux.


(** The same platform with an editor given by [GODOT_EDITOR]; that
    editor runs and exits with code 0. *)
Definition plan9_override : host := {|
  platform_system := "Plan9";
  platform_machine := "x86_64";
  environ := {[ "GODOT_EDITOR" := "/opt/godot/godot" ]};
  argv := ["import-project.py"];
  os_path := Py.posixpath;
  path_exists := λ p, String.eqb p "/opt/godot/godot";
  path_isfile := λ p, String.eqb p "/work/game/project.godot";
  path_abspath := abspath;
  subprocess_run := λ args,
    if decide (args = stub_args "/opt/godot/godot") then Completed 0
    else SpawnError "FileNotFoundError"
|}.

End Sample.

(** ** The exit status of the process *)



(** ** Strings and case *)

Section Case.

Definition all_ascii : list ascii := map ascii_of_nat (seq 0 256).

Lemma all_ascii_complete (c : ascii) : In c all_ascii.
Proof.
  rewrite <- (ascii_nat_embedding c). unfold all_ascii.
  apply in_map, in_seq. pose proof (nat_ascii_bounded c). lia.
Qed.

Lemma same_letter_lower (x y : ascii) :
  Spec.same_letter x y = Ascii.eqb (Py.ascii_lower x) (Py.ascii_lower y).
Proof.
  assert (Hall : forallb (λ a, forallb (λ b,
            Bool.eqb (Spec.same_letter a b)
                     (Ascii.eqb (Py.ascii_lower a) (Py.ascii_lower b)))
            all_ascii) all_ascii = true) by (vm_compute; reflexivity).
  rewrite forallb_forall in Hall.
  specialize (Hall x (all_ascii_complete x)).
  rewrite forallb_forall in Hall.
  specialize (Hall y (all_ascii_complete y)).
  now apply Bool.eqb_prop in Hall.
Qed.

Lemma eq_nocase_lower (a b : string) :
  Spec.eq_nocase a b = String.eqb (Py.lower a) (Py.lower b).
Proof.
  revert b. induction a as [|x a IH]; intros [|y b]; simpl; try reflexivity.
  rewrite same_letter_lower, IH.
  destruct (Ascii.eqb _ _); reflexivity.
Qed.

Lemma arch_of_nocase (machine : string) :
  arch_of machine =
    if Spec.eq_nocase machine "arm64" || Spec.eq_nocase machine "aarch64"
    then "arm64" else "x86_64".
Proof.
  rewrite !eq_nocase_lower. unfold arch_of, Py.str_in. simpl.
  rewrite orb_false_r. reflexivity.
Qed.

Lemma arch_of_cases (machine : string) :
  arch_of machine = "arm64" ∨ arch_of machine = "x86_64".
Proof. unfold arch_of. destruct (Py.str_in _ _); auto. Qed.

End Case.

(** ** How the pieces of [main] run *)

Section Runs.

Context (h : host).

Lemma truthy_nonempty (v : string) : v ≠ "" → Py.truthy v = true.
Proof.
  intros Hv. unfold Py.truthy.
  destruct (String.eqb_spec v ""); [contradiction | reflexivity].
Qed.

Lemma editor_choice_override (v : string) :
  environ h !! "GODOT_EDITOR" = Some v → v ≠ "" →
  editor_choice h = Run [] (Return v).
Proof.
  intros Hget Hv. unfold editor_choice, environ_get_or.
  rewrite Hget, (truthy_nonempty v Hv). reflexivity.
Qed.

Lemma editor_choice_detect :
  environ h !! "GODOT_EDITOR" = None ∨ environ h !! "GODOT_EDITOR" = Some "" →
  editor_choice h = detect_editor_binary h.
Proof.
  intros [Hget|Hget]; unfold editor_choice, environ_get_or; rewrite Hget;
    reflexivity.
Qed.

Lemma detect_unsupported :
  name_of (platform_system h) (arch_of (platform_machine h)) = None →
  detect_editor_binary h =
    Run [Stderr ("Unsupported platform: " +:+ platform_system h)] (SystemExit 1).
Proof. intros Hn. unfold detect_editor_binary. rewrite Hn. reflexivity. Qed.

Lemma detect_supported (name : string) :
  name_of (platform_system h) (arch_of (platform_machine h)) = Some name →
  let path := os_path_join h "godot" ["bin"; name] in
  detect_editor_binary h =
    if path_exists h path then Run [PathExists path] (Return path)
    else Run [PathExists path;
              Stderr ("Editor binary not found: " +:+ path);
              Stderr "Build the editor first: uv run poe build-godot"]
             (SystemExit 1).
Proof.
  intros Hn path. unfold detect_editor_binary. rewrite Hn. fold path.
  unfold mbind, run_bind, os_path_exists. simpl.
  destruct (path_exists h path); reflexivity.
Qed.

(** The binary locator only looks for the editor and prints: it never
    reads the project, never starts a process and never dies of an
    exception.  It returns an editor or exits with code 1. *)
Lemma editor_choice_ends :
  ∃ t, Forall locator_event t
       ∧ ((∃ e, editor_choice h = Run t (Return e))
          ∨ editor_choice h = Run t (SystemExit 1)).
Proof.
  unfold editor_choice, environ_get_or.
  assert (Hd : ∃ t, Forall locator_event t
                    ∧ ((∃ e, detect_editor_binary h = Run t (Return e))
                       ∨ detect_editor_binary h = Run t (SystemExit 1))).
  { destruct (name_of (platform_system h) (arch_of (platform_machine h)))
      as [name|] eqn:Hn.
    - rewrite (detect_supported name Hn).
      destruct (path_exists h _); eexists; (split; [|eauto]);
        repeat constructor.
    - rewrite (detect_unsupported Hn).
      eexists; (split; [|eauto]); repeat constructor. }
  destruct (environ h !! "GODOT_EDITOR") as [v|]; [|exact Hd].
  destruct (Py.truthy v); [|exact Hd].
  exists []. split; [constructor | left; exists v; reflexivity].
Qed.

Lemma main_editor_exit (t : list event) (code : Z) :
  editor_choice h = Run t (SystemExit code) →
  main h = Run t (SystemExit code).
Proof. intros He. unfold main. rewrite He. reflexivity. Qed.

Lemma main_no_marker (t : list event) (editor : string) :
  editor_choice h = Run t (Return editor) →
  path_isfile h (marker_path h) = false →
  main h = Run (t ++ [PathAbspath (project_arg h); PathIsfile (marker_path h);
                      Stderr ("No project.godot found in: " +:+ project_dir h)])
               (SystemExit 1).
Proof.
  intros He Hm. unfold main. rewrite He.
  unfold mbind, run_bind, os_path_abspath, os_path_isfile. simpl.
  fold (project_dir h).
  change (Py.join_step (os_path h) (project_dir h) "project.godot")
    with (marker_path h).
  rewrite Hm. reflexivity.
Qed.

Lemma main_spawn (t : list event) (editor : string) :
  editor_choice h = Run t (Return editor) →
  path_isfile h (marker_path h) = true →
  main h = Run (t ++ [PathAbspath (project_arg h); PathIsfile (marker_path h);
                      Spawn (editor_args h editor)])
               match subprocess_run h (editor_args h editor) with
               | Completed rc => SystemExit rc
               | SpawnError exn => Uncaught exn
               end.
Proof.
  intros He Hm. unfold main. rewrite He.
  unfold mbind, run_bind, os_path_abspath, os_path_isfile. simpl.
  fold (project_dir h).
  change (Py.join_step (os_path h) (project_dir h) "project.godot")
    with (marker_path h).
  rewrite Hm. simpl.
  unfold subprocess_run_returncode. fold (editor_args h editor).
  destruct (subprocess_run h (editor_args h editor)); reflexivity.
Qed.

End Runs.

Lemma name_of_spec (system arch tok suf : string) :
  Spec.os_token system = Some (tok, suf) →
  name_of system arch = Some (Spec.filename tok arch suf).
Proof.
  unfold Spec.os_token, name_of, Spec.filename.
  destruct (String.eqb system "Windows");
    [|destruct (String.eqb system "Linux");
      [|destruct (String.eqb system "Darwin")]];
    intros [= <- <-]; reflexivity.
Qed.


Lemma join_godot_bin (pm : Py.path_module) (tok suf arch : string) :
  arch = "arm64" ∨ arch = "x86_64" →
  Py.os_path_join pm "godot" ["bin"; Spec.filename tok arch suf]
  = "godot" +:+ Py.sep pm +:+ "bin" +:+ Py.sep pm +:+ Spec.filename tok arch suf.
Proof. intros [-> | ->]; destruct pm; reflexivity. Qed.

Lemma project_arg_default (h : host) :
  (List.length (argv h) ≤ 1)%nat → project_arg h = "./game".
Proof. intros Hlen. unfold project_arg. case_decide; [lia | reflexivity]. Qed.

Lemma project_arg_given (h : host) (prog p : string) (rest : list string) :
  argv h = prog :: p :: rest → project_arg h = p.
Proof.
  intros Hargv. unfold project_arg. rewrite Hargv.
  destruct (decide _) as [_|Hlen]; [reflexivity | simpl in Hlen; lia].
Qed.

Lemma locator_no_spawn (t : list event) (a : list string) :
  Forall locator_event t → ¬ In (Spawn a) t.
Proof.
  intros Ht Hin. rewrite Forall_forall in Ht.
  apply list_elem_of_In in Hin. exact (Ht _ Hin).
Qed.

Lemma locator_no_isfile (t : list event) (p : string) :
  Forall locator_event t → ¬ In (PathIsfile p) t.
Proof.
  intros Ht Hin. rewrite Forall_forall in Ht.
  apply list_elem_of_In in Hin. exact (Ht _ Hin).
Qed.

(** ** The launcher passes the child's return code on *)




(** ** The platform resolver *)

(** C2. On Windows, Linux and Darwin, for every machine name, the path
    the resolver computes is [godot], [bin] and the file name
    [godot.<os-token>.editor.<arch-token>.executable.mono[.exe]] joined by
    [os.path.join]; with the separator [/] that is [godot/bin/<name>].
    It is the path [detect_editor_binary] tests and, when it exists,
    returns.  The three pairs named by the specification give the three
    file names it lists. *)
Theorem resolver_path (h : host) (tok suf : string) :
  Spec.os_token (platform_system h) = Some (tok, suf) →
  let name := Spec.filename tok (arch_of (platform_machine h)) suf in
  let path := "godot" +:+ Py.sep (os_path h) +:+ "bin" +:+ Py.sep (os_path h) +:+ name in
  name_of (platform_system h) (arch_of (platform_machine h)) = Some name
  ∧ os_path_join h "godot" ["bin"; name] = path
  ∧ (os_path h = Py.posixpath → path = "godot/bin/" +:+ name)
  ∧ detect_editor_binary h
    = (if path_exists h path then Run [PathExists path] (Return path)
       else Run [PathExists path;
                 Stderr ("Editor binary not found: " +:+ path);
                 Stderr "Build the editor first: uv run poe build-godot"]
                (SystemExit 1))
  ∧ name_of "Windows" (arch_of "x86_64")
    = Some "godot.windows.editor.x86_64.executable.mono.exe"
  ∧ name_of "Linux" (arch_of "arm64")
    = Some "godot.linuxbsd.editor.arm64.executable.mono"
  ∧ name_of "Darwin" (arch_of "aarch64")
    = Some "godot.macos.editor.arm64.executable.mono".
Proof.
  intros Htok name path.
  pose proof (name_of_spec _ (arch_of (platform_machine h)) _ _ Htok) as Hname.
  fold name in Hname.
  assert (Hjoin : os_path_join h "godot" ["bin"; name] = path)
    by apply join_godot_bin, arch_of_cases.
  repeat split; try reflexivity; try assumption.
  - intros Hpm. unfold path. rewrite Hpm. reflexivity.
  - pose proof (detect_supported h name Hname) as Hd. cbv zeta in Hd.
    rewrite Hjoin in Hd. exact Hd.
Qed.

Lemma resolver_path_witness :
  Spec.os_token (platform_system Sample.mac) = Some ("macos", "")
  ∧ detect_editor_binary Sample.mac
    = Run [PathExists "godot/bin/godot.macos.editor.arm64.executable.mono";
           Stderr "Editor binary not found: godot/bin/godot.macos.editor.arm64.executable.mono";
           Stderr "Build the editor first: uv run poe build-godot"]
          (SystemExit 1).
Proof.
  assert (Htok : Spec.os_token (platform_system Sample.mac) = Some ("macos", ""))
    by reflexivity.
  split; [exact Htok|].
  destruct (resolver_path Sample.mac "macos" "" Htok) as (_ & _ & _ & Hd & _).
  rewrite Hd. reflexivity.
Defined.

(** C7. The machine name decides the architecture token without ever
    failing: a name equal to [arm64] or to [aarch64] up to the case of its
    letters gives [arm64], every other name gives [x86_64]; and whatever
    the name, each of the three known systems still gets its file name. *)
Theorem arch_token_mapping (machine : string) :
  (Spec.eq_nocase machine "arm64" = true ∨ Spec.eq_nocase machine "aarch64" = true
   → arch_of machine = "arm64")
  ∧ (Spec.eq_nocase machine "arm64" = false
     → Spec.eq_nocase machine "aarch64" = false
     → arch_of machine = "x86_64")
  ∧ (∀ system tok suf, Spec.os_token system = Some (tok, suf) →
       name_of system (arch_of machine)
       = Some (Spec.filename tok (arch_of machine) suf)).
Proof.
  rewrite arch_of_nocase. repeat split.
  - intros [-> | ->]; [reflexivity | rewrite orb_true_r; reflexivity].
  - intros -> ->. reflexivity.
  - intros system tok suf Htok. rewrite <- arch_of_nocase.
    apply name_of_spec, Htok.
Qed.

Lemma arch_token_mapping_witness :
  arch_of "AArch64" = "arm64" ∧ arch_of "ARM64" = "arm64"
  ∧ arch_of "amd64" = "x86_64" ∧ arch_of "" = "x86_64".
Proof.
  refine (conj _ (conj _ (conj _ _))).
  - apply (arch_token_mapping "AArch64"). right. reflexivity.
  - apply (arch_token_mapping "ARM64"). left. reflexivity.
  - apply (arch_token_mapping "amd64"); reflexivity.
  - apply (arch_token_mapping ""); reflexivity.
Defined.

(** ** The override *)

(** [GODOT_EDITOR] set to the empty string is a set variable, and yet
    the platform is detected, the platform's path is tested, and the
    editor that is run is the detected one, not the variable's value. *)
Lemma override_set_counterexample :
  environ Sample.linux_empty_override !! "GODOT_EDITOR" = Some ""
  ∧ main Sample.linux_empty_override
    = Run [PathExists Sample.linux_editor; PathAbspath "./game";
           PathIsfile "/work/game/project.godot";
           Spawn (Sample.stub_args Sample.linux_editor)]
          (SystemExit 7)
  ∧ ¬ (∀ (h : host) (v : string),
         environ h !! "GODOT_EDITOR" = Some v →
         (∀ p, ¬ In (PathExists p) (trace (main h)))
         ∧ (∀ a, In (Spawn a) (trace (main h)) → head a = Some v)).
Proof.
  split; [reflexivity|]. split; [reflexivity|].
  intros Hclaim.
  destruct (Hclaim Sample.linux_empty_override "" eq_refl) as [Hno _].
  apply (Hno Sample.linux_editor). left. reflexivity.
Qed.

(** C3, amended. Whenever [GODOT_EDITOR] is set to a value that is not
    the empty string, the value is the editor as it is: nothing is
    detected and nothing is tested for existence, so the run is the
    resolution and test of the project followed, when the marker is
    there, by the spawn of that very value; and the run is the same on
    every platform and whatever exists on disk. *)
Theorem override_used_verbatim (h : host) (v : string) :
  environ h !! "GODOT_EDITOR" = Some v → v ≠ "" →
  editor_choice h = Run [] (Return v)
  ∧ main h
    = (if path_isfile h (marker_path h) then
         Run [PathAbspath (project_arg h); PathIsfile (marker_path h);
              Spawn (editor_args h v)]
             match subprocess_run h (editor_args h v) with
             | Completed rc => SystemExit rc
             | SpawnError exn => Uncaught exn
             end
       else
         Run [PathAbspath (project_arg h); PathIsfile (marker_path h);
              Stderr ("No project.godot found in: " +:+ project_dir h)]
             (SystemExit 1))
  ∧ (∀ (system machine : string) (exists_ : string → bool),
       main (set_platform system machine (set_files exists_ (path_isfile h) h))
       = main h).
Proof.
  intros Hget Hv.
  assert (Hmain : ∀ h', environ h' !! "GODOT_EDITOR" = Some v →
            main h'
            = (if path_isfile h' (marker_path h') then
                 Run [PathAbspath (project_arg h'); PathIsfile (marker_path h');
                      Spawn (editor_args h' v)]
                     match subprocess_run h' (editor_args h' v) with
                     | Completed rc => SystemExit rc
                     | SpawnError exn => Uncaught exn
                     end
               else
                 Run [PathAbspath (project_arg h'); PathIsfile (marker_path h');
                      Stderr ("No project.godot found in: " +:+ project_dir h')]
                     (SystemExit 1))).
  { intros h' Hget'.
    pose proof (editor_choice_override h' v Hget' Hv) as He.
    destruct (path_isfile h' (marker_path h')) eqn:Hm.
    - rewrite (main_spawn h' [] v He Hm). reflexivity.
    - rewrite (main_no_marker h' [] v He Hm). reflexivity. }
  split; [apply editor_choice_override; assumption|].
  split; [apply Hmain, Hget|].
  intros system machine exists_.
  rewrite (Hmain h Hget).
  rewrite (Hmain (set_platform system machine
                    (set_files exists_ (path_isfile h) h)) Hget).
  reflexivity.
Qed.

Lemma override_used_verbatim_witness :
  environ Sample.linux_missing_override !! "GODOT_EDITOR" = Some "/opt/godot/missing"
  ∧ "/opt/godot/missing" ≠ ""
  ∧ path_exists Sample.linux_missing_override "/opt/godot/missing" = false
  ∧ main Sample.linux_missing_override
    = Run [PathAbspath "./game"; PathIsfile "/work/game/project.godot";
           Spawn (Sample.stub_args "/opt/godot/missing")]
          (Uncaught "FileNotFoundError").
Proof.
  assert (Hget : environ Sample.linux_missing_override !! "GODOT_EDITOR"
                 = Some "/opt/godot/missing") by reflexivity.
  assert (Hv : "/opt/godot/missing" ≠ "") by discriminate.
  refine (conj Hget (conj Hv (conj eq_refl _))).
  destruct (override_used_verbatim _ _ Hget Hv) as (_ & Hmain & _).
  rewrite Hmain. reflexivity.
Defined.

(** C9. [GODOT_EDITOR] set to the empty string counts for nothing: the
    editor is the one [detect_editor_binary] finds, and the whole run is
    the run of the same host with the variable removed. *)
Theorem empty_override_ignored (h : host) :
  environ h !! "GODOT_EDITOR" = Some "" →
  editor_choice h = detect_editor_binary h
  ∧ main h = main (set_environ (delete "GODOT_EDITOR" (environ h)) h).
Proof.
  intros Hget.
  pose proof (editor_choice_detect h (or_intror Hget)) as He.
  split; [exact He|].
  pose proof (editor_choice_detect
                (set_environ (delete "GODOT_EDITOR" (environ h)) h)
                (or_introl (lookup_delete_eq (environ h) "GODOT_EDITOR"))) as He'.
  unfold main. rewrite He, He'. reflexivity.
Qed.

Lemma empty_override_ignored_witness :
  environ Sample.linux_empty_override !! "GODOT_EDITOR" = Some ""
  ∧ main Sample.linux_empty_override = main Sample.linux.
Proof.
  assert (Hget : environ Sample.linux_empty_override !! "GODOT_EDITOR" = Some "")
    by reflexivity.
  split; [exact Hget|].
  destruct (empty_override_ignored _ Hget) as [_ Hmain].
  rewrite Hmain. reflexivity.
Defined.

(** ** The three fatal exits *)










(** ** The project path and the arguments of the child *)

(** C8. The project is [./game] when the command line has no word after
    the program name and that word otherwise; it is made absolute by
    [os.path.abspath] before it is used, and used only in that form: the
    one file [main] tests is [project.godot] joined to the absolute
    directory, and every child [main] starts gets exactly the editor,
    [--headless], [--import], [--path] and the absolute directory, which
    then holds its marker.  When the locator returns an editor and the
    marker is there, that child is started. *)
Theorem project_path_and_arguments (h : host) :
  ((List.length (argv h) ≤ 1)%nat → project_arg h = "./game")
  ∧ (∀ prog p rest, argv h = prog :: p :: rest → project_arg h = p)
  ∧ (∀ p, In (PathIsfile p) (trace (main h)) →
       p = os_path_join h (path_abspath h (project_arg h)) ["project.godot"])
  ∧ (∀ a, In (Spawn a) (trace (main h)) →
       ∃ editor,
         a = [editor; "--headless"; "--import"; "--path";
              path_abspath h (project_arg h)]
         ∧ path_isfile h
             (os_path_join h (path_abspath h (project_arg h)) ["project.godot"])
           = true)
  ∧ (∀ t editor, editor_choice h = Run t (Return editor) →
       path_isfile h (marker_path h) = true →
       trace (main h)
       = (t ++ [PathAbspath (project_arg h); PathIsfile (marker_path h);
                Spawn [editor; "--headless"; "--import"; "--path";
                       path_abspath h (project_arg h)]])%list).
Proof.
  split; [apply project_arg_default|].
  split; [apply project_arg_given|].
  fold (project_dir h). fold (marker_path h).
  destruct (editor_choice_ends h) as (t & Ht & [[e He] | He]).
  - destruct (path_isfile h (marker_path h)) eqn:Hm.
    + rewrite (main_spawn h t e He Hm). simpl. repeat split.
      * intros p Hin. apply in_app_or in Hin as [Hin | Hin].
        -- destruct (locator_no_isfile t p Ht Hin).
        -- simpl in Hin. destruct Hin as [[=] | [[= <-] | [[=] | []]]].
           reflexivity.
      * intros a Hin. apply in_app_or in Hin as [Hin | Hin].
        -- destruct (locator_no_spawn t a Ht Hin).
        -- simpl in Hin. destruct Hin as [[=] | [[=] | [[= <-] | []]]].
           exists e. split; reflexivity.
      * intros t' e' He' _. rewrite He in He'. injection He' as <- <-.
        reflexivity.
    + rewrite (main_no_marker h t e He Hm). simpl. repeat split.
      * intros p Hin. apply in_app_or in Hin as [Hin | Hin].
        -- destruct (locator_no_isfile t p Ht Hin).
        -- simpl in Hin. destruct Hin as [[=] | [[= <-] | [[=] | []]]].
           reflexivity.
      * intros a Hin. apply in_app_or in Hin as [Hin | Hin].
        -- destruct (locator_no_spawn t a Ht Hin).
        -- simpl in Hin. destruct Hin as [[=] | [[=] | [[=] | []]]].
      * intros t' e' _ [=].
  - rewrite (main_editor_exit h t 1 He). simpl. repeat split.
    + intros p Hin. destruct (locator_no_isfile t p Ht Hin).
    + intros a Hin. destruct (locator_no_spawn t a Ht Hin).
    + intros t' e' He'. rewrite He in He'. discriminate He'.
Qed.

Lemma project_path_and_arguments_witness :
  project_arg Sample.linux = "./game"
  ∧ trace (main Sample.linux)
    = [PathExists Sample.linux_editor; PathAbspath "./game";
       PathIsfile "/work/game/project.godot";
       Spawn [Sample.linux_editor; "--headless"; "--import"; "--path";
              "/work/game"]].
Proof.
  destruct (project_path_and_arguments Sample.linux)
    as (Hdefault & _ & _ & _ & Hspawn).
  split.
  - apply Hdefault. simpl. lia.
  - exact (Hspawn [PathExists Sample.linux_editor] Sample.linux_editor
             eq_refl eq_refl).
Defined.

(** C10. Of the command line only the word after the program name is
    read: whatever follows it changes nothing in the run, so neither the
    editor, nor the project that is tested, nor the arguments of the
    child depend on it. *)
Theorem extra_arguments_ignored
    (h : host) (prog p : string) (extra : list string) :
  main (set_argv (prog :: p :: extra) h) = main (set_argv [prog; p] h)
  ∧ project_arg (set_argv (prog :: p :: extra) h) = p.
Proof.
  assert (Hp : ∀ rest, project_arg (set_argv (prog :: p :: rest) h) = p)
    by (intros rest; apply (project_arg_given _ prog p rest); reflexivity).
  split; [|apply Hp].
  unfold main. rewrite (Hp extra), (Hp []). reflexivity.
Qed.

Lemma extra_arguments_ignored_witness :
  main Sample.linux_extra_args
  = main (set_argv ["import-project.py"; "./game"] Sample.linux).
Proof.
  exact (proj1 (extra_arguments_ignored Sample.linux "import-project.py"
                  "./game" ["--verbose"; "x"])).
Defined.

(** ** The shape of every run *)

(** The four ways line 40 can go: an override that counts, or no such
    override and then an editor that is found, an editor that is missing,
    or a platform without an editor. *)
Lemma editor_choice_shape (h : host) :
  (∃ v, environ h !! "GODOT_EDITOR" = Some v ∧ v ≠ ""
        ∧ editor_choice h = Run [] (Return v))
  ∨ ((environ h !! "GODOT_EDITOR" = None ∨ environ h !! "GODOT_EDITOR" = Some "")
     ∧ ((∃ name,
           name_of (platform_system h) (arch_of (platform_machine h)) = Some name
           ∧ path_exists h (os_path_join h "godot" ["bin"; name]) = true
           ∧ editor_choice h
             = Run [PathExists (os_path_join h "godot" ["bin"; name])]
                   (Return (os_path_join h "godot" ["bin"; name])))
        ∨ (∃ name,
             name_of (platform_system h) (arch_of (platform_machine h)) = Some name
             ∧ path_exists h (os_path_join h "godot" ["bin"; name]) = false
             ∧ editor_choice h
               = Run [PathExists (os_path_join h "godot" ["bin"; name]);
                      Stderr ("Editor binary not found: "
                              +:+ os_path_join h "godot" ["bin"; name]);
                      Stderr "Build the editor first: uv run poe build-godot"]
                     (SystemExit 1))
        ∨ (name_of (platform_system h) (arch_of (platform_machine h)) = None
           ∧ editor_choice h
             = Run [Stderr ("Unsupported platform: " +:+ platform_system h)]
                   (SystemExit 1)))).
Proof.
  assert (Hdetect :
    environ h !! "GODOT_EDITOR" = None ∨ environ h !! "GODOT_EDITOR" = Some "" →
    (∃ name,
       name_of (platform_system h) (arch_of (platform_machine h)) = Some name
       ∧ path_exists h (os_path_join h "godot" ["bin"; name]) = true
       ∧ editor_choice h
         = Run [PathExists (os_path_join h "godot" ["bin"; name])]
               (Return (os_path_join h "godot" ["bin"; name])))
    ∨ (∃ name,
         name_of (platform_system h) (arch_of (platform_machine h)) = Some name
         ∧ path_exists h (os_path_join h "godot" ["bin"; name]) = false
         ∧ editor_choice h
           = Run [PathExists (os_path_join h "godot" ["bin"; name]);
                  Stderr ("Editor binary not found: "
                          +:+ os_path_join h "godot" ["bin"; name]);
                  Stderr "Build the editor first: uv run poe build-godot"]
                 (SystemExit 1))
    ∨ (name_of (platform_system h) (arch_of (platform_machine h)) = None
       ∧ editor_choice h
         = Run [Stderr ("Unsupported platform: " +:+ platform_system h)]
               (SystemExit 1))).
  { intros Henv. rewrite (editor_choice_detect h Henv).
    destruct (name_of (platform_system h) (arch_of (platform_machine h)))
      as [name|] eqn:Hn.
    - pose proof (detect_supported h name Hn) as Hd. cbv zeta in Hd.
      destruct (path_exists h (os_path_join h "godot" ["bin"; name])) eqn:Hex.
      + left. exists name. auto.
      + right. left. exists name. auto.
    - right. right. split; [reflexivity | apply detect_unsupported, Hn]. }
  destruct (environ h !! "GODOT_EDITOR") as [v|] eqn:Hget.
  - destruct (String.eqb_spec v "") as [-> | Hv].
    + right. split; [right; reflexivity | apply Hdetect; right; reflexivity].
    + left. exists v. repeat split; [assumption|].
      apply editor_choice_override; assumption.
  - right. split; [left; reflexivity | apply Hdetect; left; reflexivity].
Qed.

(** Every run of [main]: the locator fails after printing, or it returns
    an editor without printing and the project decides between the
    message about the marker and the spawn. *)
Lemma main_runs (h : host) :
  ∃ t, Forall locator_event t
    ∧ (((∃ line, In (Stderr line) t) ∧ main h = Run t (SystemExit 1))
       ∨ (∃ editor,
            editor_choice h = Run t (Return editor)
            ∧ (∀ line, ¬ In (Stderr line) t)
            ∧ ((path_isfile h (marker_path h) = false
                ∧ main h
                  = Run (t ++ [PathAbspath (project_arg h);
                               PathIsfile (marker_path h);
                               Stderr ("No project.godot found in: "
                                       +:+ project_dir h)])
                        (SystemExit 1))
               ∨ (path_isfile h (marker_path h) = true
                  ∧ main h
                    = Run (t ++ [PathAbspath (project_arg h);
                                 PathIsfile (marker_path h);
                                 Spawn (editor_args h editor)])
                          match subprocess_run h (editor_args h editor) with
                          | Completed rc => SystemExit rc
                          | SpawnError exn => Uncaught exn
                          end)))).
Proof.
  assert (Hgo : ∀ t editor,
            editor_choice h = Run t (Return editor) →
            (path_isfile h (marker_path h) = false
             ∧ main h
               = Run (t ++ [PathAbspath (project_arg h);
                            PathIsfile (marker_path h);
                            Stderr ("No project.godot found in: "
                                    +:+ project_dir h)])
                     (SystemExit 1))
            ∨ (path_isfile h (marker_path h) = true
               ∧ main h
                 = Run (t ++ [PathAbspath (project_arg h);
                              PathIsfile (marker_path h);
                              Spawn (editor_args h editor)])
                       match subprocess_run h (editor_args h editor) with
                       | Completed rc => SystemExit rc
                       | SpawnError exn => Uncaught exn
                       end)).
  { intros t editor He. destruct (path_isfile h (marker_path h)) eqn:Hm.
    - right. split; [reflexivity | exact (main_spawn h t editor He Hm)].
    - left. split; [reflexivity | exact (main_no_marker h t editor He Hm)]. }
  destruct (editor_choice_shape h)
    as [(v & _ & _ & He)
       | (_ & [(name & _ & _ & He) | [(name & _ & _ & He) | (_ & He)]])].
  - exists []. split; [constructor|]. right. exists v.
    split; [exact He|]. split; [intros line []|]. apply Hgo, He.
  - exists [PathExists (os_path_join h "godot" ["bin"; name])].
    split; [repeat constructor|]. right.
    exists (os_path_join h "godot" ["bin"; name]).
    split; [exact He|]. split; [|apply Hgo, He].
    intros line [[=] | []].
  - exists [PathExists (os_path_join h "godot" ["bin"; name]);
            Stderr ("Editor binary not found: "
                    +:+ os_path_join h "godot" ["bin"; name]);
            Stderr "Build the editor first: uv run poe build-godot"].
    split; [repeat constructor|]. left.
    split; [|apply main_editor_exit, He].
    eexists. right. left. reflexivity.
  - exists [Stderr ("Unsupported platform: " +:+ platform_system h)].
    split; [repeat constructor|]. left.
    split; [|apply main_editor_exit, He].
    eexists. left. reflexivity.
Qed.

Lemma locator_no_spawn_app (t : list event) (es : list event) (a : list string) :
  Forall locator_event t → In (Spawn a) (t ++ es) → In (Spawn a) es.
Proof.
  intros Ht Hin. apply in_app_or in Hin as [Hin | Hin]; [|exact Hin].
  destruct (locator_no_spawn t a Ht Hin).
Qed.

(** ** What every run looks like *)

Lemma spawn_is_last (l0 t1 t2 : list event) (a b : list string) :
  (∀ c, ¬ In (Spawn c) l0) →
  (l0 ++ [Spawn b])%list = (t1 ++ Spawn a :: t2)%list →
  t1 = l0 ∧ a = b ∧ t2 = [].
Proof.
  revert t1. induction l0 as [|e l0 IH]; intros t1 Hno Heq.
  - destruct t1 as [|e1 t1]; simpl in Heq.
    + injection Heq as <- <-. auto.
    + injection Heq as _ Heq. destruct t1; discriminate Heq.
  - destruct t1 as [|e1 t1]; simpl in Heq.
    + injection Heq as -> _. destruct (Hno a). left. reflexivity.
    + injection Heq as <- Heq.
      destruct (IH t1 (λ c Hin, Hno c (or_intror Hin)) Heq) as (-> & -> & ->).
      auto.
Qed.

(** X1. [main] starts at most one child, and nothing happens after it:
    wherever a spawn stands in a run, it is the last event, no other
    spawn comes before it, its arguments are the fixed ones, and the run
    ends with [sys.exit] of the child's return code, or with the
    exception of the spawn when the child could not be started. *)
Theorem one_child_at_most
    (h : host) (t1 t2 : list event) (a : list string) :
  trace (main h) = (t1 ++ Spawn a :: t2)%list →
  t2 = []
  ∧ (∀ b, ¬ In (Spawn b) t1)
  ∧ ∃ editor,
      a = editor_args h editor
      ∧ result (main h)
        = match subprocess_run h a with
          | Completed rc => SystemExit rc
          | SpawnError exn => Uncaught exn
          end.
Proof.
  intros Htrace.
  assert (Hin : In (Spawn a) (trace (main h)))
    by (rewrite Htrace; apply in_or_app; right; left; reflexivity).
  destruct (main_runs h)
    as (t & Ht & [[_ Hmain] | (e & _ & _ & [[_ Hmain] | [_ Hmain]])]);
    rewrite Hmain in Htrace, Hin |- *; simpl in Htrace, Hin |- *.
  - destruct (locator_no_spawn t a Ht Hin).
  - apply (locator_no_spawn_app t _ a Ht) in Hin. simpl in Hin.
    exfalso. intuition discriminate.
  - assert (Hno : ∀ c, ¬ In (Spawn c)
                        (t ++ [PathAbspath (project_arg h);
                               PathIsfile (marker_path h)])).
    { intros c Hc. apply (locator_no_spawn_app t _ c Ht) in Hc. simpl in Hc.
      intuition discriminate. }
    change (t ++ [PathAbspath (project_arg h); PathIsfile (marker_path h);
                  Spawn (editor_args h e)])%list
      with (t ++ [PathAbspath (project_arg h); PathIsfile (marker_path h)]
              ++ [Spawn (editor_args h e)])%list in Htrace.
    rewrite app_assoc in Htrace.
    destruct (spawn_is_last _ _ _ _ _ Hno Htrace) as (-> & -> & ->).
    split; [reflexivity|]. split; [exact Hno|]. exists e. auto.
Qed.

Lemma one_child_at_most_witness :
  trace (main Sample.linux)
  = ([PathExists Sample.linux_editor; PathAbspath "./game";
      PathIsfile "/work/game/project.godot"]
     ++ Spawn (Sample.stub_args Sample.linux_editor) :: [])%list
  ∧ result (main Sample.linux) = SystemExit 7.
Proof.
  assert (Htrace : trace (main Sample.linux)
                   = ([PathExists Sample.linux_editor; PathAbspath "./game";
                       PathIsfile "/work/game/project.godot"]
                      ++ Spawn (Sample.stub_args Sample.linux_editor) :: [])%list)
    by reflexivity.
  split; [exact Htrace|].
  destruct (one_child_at_most Sample.linux _ _ _ Htrace)
    as (_ & _ & editor & _ & Hres).
  rewrite Hres. reflexivity.
Defined.

(** X2. The exit code 1 is the only one the launcher produces itself:
    when [main] exits with any other code, the project held its marker,
    the editor was run, and the code is the return code of that child. *)
Theorem other_exit_code_is_the_childs (h : host) (code : Z) :
  result (main h) = SystemExit code → code ≠ 1%Z →
  ∃ editor,
    path_isfile h (marker_path h) = true
    ∧ In (Spawn (editor_args h editor)) (trace (main h))
    ∧ subprocess_run h (editor_args h editor) = Completed code.
Proof.
  intros Hres Hcode.
  destruct (main_runs h)
    as (t & Ht & [[_ Hmain] | (e & _ & _ & [[_ Hmain] | [Hm Hmain]])]);
    rewrite Hmain in Hres |- *; simpl in Hres |- *.
  - injection Hres as <-. contradiction.
  - injection Hres as <-. contradiction.
  - exists e. split; [exact Hm|]. split.
    + apply in_or_app. right. simpl. auto.
    + destruct (subprocess_run h (editor_args h e)) as [rc | exn];
        [injection Hres as ->; reflexivity | discriminate Hres].
Qed.

Lemma other_exit_code_is_the_childs_witness :
  result (main Sample.plan9_override) = SystemExit 0
  ∧ subprocess_run Sample.plan9_override
      (editor_args Sample.plan9_override "/opt/godot/godot") = Completed 0.
Proof.
  split; [reflexivity|].
  destruct (other_exit_code_is_the_childs Sample.plan9_override 0 eq_refl
              ltac:(discriminate)) as (editor & _ & Hin & Hrun).
  simpl in Hin. destruct Hin as [[=] | [[=] | [[= <-] | []]]]. exact Hrun.
Defined.

(** X3. When the locator returned an editor, the project holds its
    marker and the child cannot be started, the exception of
    [subprocess.run] ends the launcher: nothing catches it, nothing is
    printed by the script after the locator, and there is no [sys.exit]. *)
Theorem spawn_failure_is_uncaught
    (h : host) (t : list event) (editor exn : string) :
  editor_choice h = Run t (Return editor) →
  path_isfile h (marker_path h) = true →
  subprocess_run h (editor_args h editor) = SpawnError exn →
  main h = Run (t ++ [PathAbspath (project_arg h); PathIsfile (marker_path h);
                      Spawn (editor_args h editor)])
               (Uncaught exn).
Proof.
  intros He Hm Hrun. rewrite (main_spawn h t editor He Hm), Hrun. reflexivity.
Qed.

Lemma spawn_failure_is_uncaught_witness :
  result (main Sample.linux_missing_override) = Uncaught "FileNotFoundError".
Proof.
  rewrite (spawn_failure_is_uncaught Sample.linux_missing_override []
             "/opt/godot/missing" "FileNotFoundError" eq_refl eq_refl eq_refl).
  reflexivity.
Defined.


(** X5. Without an override that counts, the editor of every spawn is
    the path the resolver computed for the platform, and the run begins
    with the test of that very path by [os.path.exists], which answered
    true: the run is that test, the resolution and the test of the
    project, and then the spawn, in this order. *)
Theorem detected_editor_exists (h : host) (a : list string) :
  environ h !! "GODOT_EDITOR" = None ∨ environ h !! "GODOT_EDITOR" = Some "" →
  In (Spawn a) (trace (main h)) →
  ∃ name,
    name_of (platform_system h) (arch_of (platform_machine h)) = Some name
    ∧ a = editor_args h (os_path_join h "godot" ["bin"; name])
    ∧ path_exists h (os_path_join h "godot" ["bin"; name]) = true
    ∧ trace (main h)
      = [PathExists (os_path_join h "godot" ["bin"; name]);
         PathAbspath (project_arg h); PathIsfile (marker_path h);
         Spawn a].
Proof.
  intros Henv Hin.
  destruct (editor_choice_shape h)
    as [(v & Hget & Hv & _)
       | (_ & [(name & Hn & Hex & He) | [(name & _ & _ & He) | (_ & He)]])].
  - destruct Henv as [Hnone | Hempty]; congruence.
  - destruct (path_isfile h (marker_path h)) eqn:Hm.
    + rewrite (main_spawn h _ _ He Hm) in Hin |- *. simpl in Hin |- *.
      destruct Hin as [[=] | [[=] | [[=] | [[= <-] | []]]]].
      exists name. auto.
    + rewrite (main_no_marker h _ _ He Hm) in Hin. simpl in Hin.
      exfalso. intuition discriminate.
  - rewrite (main_editor_exit h _ _ He) in Hin. simpl in Hin.
    exfalso. intuition discriminate.
  - rewrite (main_editor_exit h _ _ He) in Hin. simpl in Hin.
    exfalso. intuition discriminate.
Qed.

Lemma detected_editor_exists_witness :
  path_exists Sample.linux Sample.linux_editor = true
  ∧ trace (main Sample.linux)
    = [PathExists Sample.linux_editor; PathAbspath "./game";
       PathIsfile "/work/game/project.godot";
       Spawn (Sample.stub_args Sample.linux_editor)].
Proof.
  assert (Hin : In (Spawn (Sample.stub_args Sample.linux_editor))
                   (trace (main Sample.linux)))
    by (do 3 right; left; reflexivity).
  destruct (detected_editor_exists Sample.linux _ (or_introl eq_refl) Hin)
    as (name & Hn & _ & Hex & Htrace).
  injection Hn as <-. split; [exact Hex | exact Htrace].
Defined.

(** ** More on the resolver *)

(** X6. The resolver knows exactly six file names: a name is computed
    for some system and machine if and only if it is one of the three
    systems' names with one of the two architecture tokens. *)
Theorem six_file_names (name : string) :
  (∃ system machine, name_of system (arch_of machine) = Some name)
  ↔ In name ["godot.windows.editor.x86_64.executable.mono.exe";
             "godot.windows.editor.arm64.executable.mono.exe";
             "godot.linuxbsd.editor.x86_64.executable.mono";
             "godot.linuxbsd.editor.arm64.executable.mono";
             "godot.macos.editor.x86_64.executable.mono";
             "godot.macos.editor.arm64.executable.mono"].
Proof.
  split.
  - intros (system & machine & Hn). unfold name_of in Hn.
    destruct (arch_of_cases machine) as [Ha | Ha]; rewrite Ha in Hn;
      (destruct (String.eqb system "Windows");
       [| destruct (String.eqb system "Linux");
          [| destruct (String.eqb system "Darwin");
             [| discriminate Hn]]]);
      injection Hn as <-; simpl; tauto.
  - intros Hin. simpl in Hin.
    destruct Hin as [<- | [<- | [<- | [<- | [<- | [<- | []]]]]]].
    + exists "Windows", "x86_64". reflexivity.
    + exists "Windows", "arm64". reflexivity.
    + exists "Linux", "x86_64". reflexivity.
    + exists "Linux", "arm64". reflexivity.
    + exists "Darwin", "x86_64". reflexivity.
    + exists "Darwin", "arm64". reflexivity.
Qed.




(** ** What the run depends on *)



(** X9. Giving no project is giving [./game]: the run with only the
    program name on the command line, or with an empty command line, is
    the run with [./game] as the project argument. *)
Theorem default_project_is_game (h : host) (prog : string) :
  main (set_argv [prog] h) = main (set_argv [prog; "./game"] h)
  ∧ main (set_argv [] h) = main (set_argv [prog; "./game"] h).
Proof.
  assert (H1 : project_arg (set_argv [prog] h) = "./game")
    by (apply project_arg_default; simpl; lia).
  assert (H0 : project_arg (set_argv [] h) = "./game")
    by (apply project_arg_default; simpl; lia).
  assert (H2 : project_arg (set_argv [prog; "./game"] h) = "./game")
    by (apply (project_arg_given _ prog "./game" []); reflexivity).
  unfold main. rewrite H0, H1, H2. split; reflexivity.
Qed.

(** X11. The machine name matters only through its architecture token:
    on any system, two machine names with the same token give the same
    run, so every machine that is not an ARM64 one is served the
    [x86_64] editor. *)
Theorem machine_matters_by_token (h : host) (system m1 m2 : string) :
  arch_of m1 = arch_of m2 →
  main (set_platform system m1 h) = main (set_platform system m2 h).
Proof.
  intros Harch. unfold main, editor_choice, detect_editor_binary. simpl.
  rewrite Harch. reflexivity.
Qed.

Lemma machine_matters_by_token_witness :
  arch_of "riscv64" = arch_of "x86_64"
  ∧ main (set_platform "Linux" "riscv64" Sample.linux) = main Sample.linux.
Proof.
  assert (Harch : arch_of "riscv64" = arch_of "x86_64") by reflexivity.
  split; [exact Harch|].
  exact (machine_matters_by_token Sample.linux "Linux" "riscv64" "x86_64" Harch).
Defined.
